(** * pyignite.api.key_value: the key-value operations of the binary client

    A shallow embedding of [modules/platforms/python/pyignite/api/key_value.py].
    Every [cache_*] function of the module builds a [Query] (operation code,
    request schema, query id), hands it with the parameter dictionary to
    [Query.perform], and post-processes the [APIResult] it gets back.

    [Query.perform], the op codes, the data types and [cache_id] are imported
    by the module from elsewhere: [perform] is a parameter of the operations
    here, the op codes and data types are symbolic constants, and [cache_id]
    is modelled from the specification. *)

From Stdlib Require Import ZArith List String Ascii Bool Lia.
Import ListNotations.
Open Scope string_scope.
Open Scope list_scope.
Open Scope Z_scope.
Set Warnings "-register-all".

(** ** Python values *)

(** A Python [str]: the sequence of its Unicode code points. *)
Definition pystr := list N.

(** The [str] written by an ASCII literal of the source. *)
Fixpoint text (s : string) : pystr :=
  match s with
  | EmptyString => []
  | String c s' => N_of_ascii c :: text s'
  end.

(** The names the module imports from [pyignite.datatypes] (and [PeekModes]
    from [pyignite.datatypes.key_value]).  [AnyDataArray] stands for the
    instance [AnyDataArray()] the source creates; [DataClass] for any other
    data type of the package that a caller passes as a hint. *)
Inductive DataType : Type :=
| Map | Bool | Byte | Int | Long | AnyDataArray | AnyDataObject | PeekModes
| DataClass (name : string).

(** The values the operations handle: arguments, hints, decoded fields. *)
Inductive PyValue : Type :=
| PyNone
| PyBool (b : bool)
| PyInt (n : Z)
| PyStr (s : pystr)
| PyList (items : list PyValue)
| PyTuple (items : list PyValue)
| PyDict (entries : list (PyValue * PyValue))
| PyType (t : DataType).

(** Exceptions: the two the module's own expressions can raise, and the two
    kinds [perform] raises (decode violation, transport failure). *)
Inductive PyExc : Type :=
| KeyError | TypeError | ValueError | ProtocolError | TransportError.

Inductive outcome (A : Type) : Type :=
| Ok (a : A)
| Raise (e : PyExc).
Arguments Ok {A} a.
Arguments Raise {A} e.

(** [bool(v)]: Python truthiness.  Classes and data type instances are
    truthy. *)
Definition py_bool (v : PyValue) : bool :=
  match v with
  | PyNone => false
  | PyBool b => b
  | PyInt n => negb (n =? 0)
  | PyStr s => match s with [] => false | _ => true end
  | PyList l | PyTuple l => match l with [] => false | _ => true end
  | PyDict d => match d with [] => false | _ => true end
  | PyType _ => true
  end.

(** [a or b]. *)
Definition py_or (a b : PyValue) : PyValue :=
  if py_bool a then a else b.

(** [isinstance(v, (list, tuple))]. *)
Definition is_list_or_tuple (v : PyValue) : bool :=
  match v with
  | PyList _ | PyTuple _ => true
  | _ => false
  end.

(** [v == n] for an [int] literal [n]: [bool] is a subclass of [int], so
    [False == 0] and [True == 1]; no other kind of value equals an [int]. *)
Definition py_eq_int (v : PyValue) (n : Z) : bool :=
  match v with
  | PyInt m => m =? n
  | PyBool b => (if b then 1 else 0) =? n
  | _ => false
  end.

Definition pystr_eqb (a b : pystr) : bool :=
  if list_eq_dec N.eq_dec a b then true else false.

Definition datatype_eqb (a b : DataType) : bool :=
  match a, b with
  | Map, Map | Bool, Bool | Byte, Byte | Int, Int | Long, Long
  | AnyDataArray, AnyDataArray | AnyDataObject, AnyDataObject
  | PeekModes, PeekModes => true
  | DataClass x, DataClass y => String.eqb x y
  | _, _ => false
  end.

(** [hash(v)] succeeds: lists and dicts are unhashable, a tuple is hashable
    when its items are. *)
Fixpoint py_hashable (v : PyValue) : bool :=
  match v with
  | PyList _ | PyDict _ => false
  | PyTuple l => forallb py_hashable l
  | _ => true
  end.

(** [a == b] on hashable values (dictionary keys). *)
Fixpoint py_key_eqb (a b : PyValue) : bool :=
  match a, b with
  | PyNone, PyNone => true
  | PyBool x, PyBool y => Bool.eqb x y
  | PyBool x, PyInt n | PyInt n, PyBool x => (if x then 1 else 0) =? n
  | PyInt m, PyInt n => m =? n
  | PyStr s, PyStr t => pystr_eqb s t
  | PyType s, PyType t => datatype_eqb s t
  | PyTuple l, PyTuple r =>
      (fix all2 (l r : list PyValue) : bool :=
         match l, r with
         | [], [] => true
         | x :: l', y :: r' => py_key_eqb x y && all2 l' r'
         | _, _ => false
         end) l r
  | _, _ => false
  end.

(** [d[k] = v] on the entries of a dictionary: an existing key keeps its
    place, a new one goes last. *)
Fixpoint dict_setitem (d : list (PyValue * PyValue)) (k v : PyValue)
  : list (PyValue * PyValue) :=
  match d with
  | [] => [(k, v)]
  | (k', v') :: d' =>
      if py_key_eqb k' k then (k', v) :: d' else (k', v') :: dict_setitem d' k v
  end.

(** [d[k]] for a [str] key [k], on the entries of a dictionary. *)
Fixpoint dict_getitem (d : list (PyValue * PyValue)) (k : pystr)
  : option PyValue :=
  match d with
  | [] => None
  | (PyStr k', v) :: d' => if pystr_eqb k' k then Some v else dict_getitem d' k
  | _ :: d' => dict_getitem d' k
  end.

(** [o[k]] for a [str] literal [k]: only a dictionary can be subscripted by a
    [str]. *)
Definition py_getitem (o : PyValue) (k : string) : outcome PyValue :=
  match o with
  | PyDict d =>
      match dict_getitem d (text k) with
      | Some v => Ok v
      | None => Raise KeyError
      end
  | _ => Raise TypeError
  end.

(** [list(v)]: the items an iteration over [v] yields. *)
Definition py_iter (v : PyValue) : outcome (list PyValue) :=
  match v with
  | PyList l | PyTuple l => Ok l
  | PyStr s => Ok (List.map (fun c => PyStr [c]) s)
  | PyDict d => Ok (List.map fst d)
  | _ => Raise TypeError
  end.

(** [dict(v)]: a copy of a dictionary, or the dictionary built from an
    iterable of two-item iterables. *)
Fixpoint dict_update (d : list (PyValue * PyValue)) (items : list PyValue)
  : outcome (list (PyValue * PyValue)) :=
  match items with
  | [] => Ok d
  | item :: items' =>
      match py_iter item with
      | Ok [k; v] =>
          if py_hashable k then dict_update (dict_setitem d k v) items'
          else Raise TypeError
      | Ok _ => Raise ValueError
      | Raise e => Raise e
      end
  end.

Definition py_dict (v : PyValue) : outcome PyValue :=
  match v with
  | PyDict d => Ok (PyDict d)
  | _ =>
      match py_iter v with
      | Ok items =>
          match dict_update [] items with
          | Ok d => Ok (PyDict d)
          | Raise e => Raise e
          end
      | Raise e => Raise e
      end
  end.

(** ** Cache identifier *)

(** The [cache] argument, [Union[str, int]]. *)
Inductive Cache : Type :=
| CacheName (name : pystr)
| CacheId (id : Z).

(** Wrap-around to a signed 32-bit integer. *)
Definition int_overflow (z : Z) : Z :=
  (z + 2 ^ 31) mod 2 ^ 32 - 2 ^ 31.

(** The UTF-16 code units of a code point. *)
Definition utf16_units (cp : N) : list Z :=
  let c := Z.of_N cp in
  if c <? 65536 then [c]
  else [55296 + (c - 65536) / 1024; 56320 + (c - 65536) mod 1024].

Definition utf16 (s : pystr) : list Z := flat_map utf16_units s.

(** Modelled from the spec: [pyignite.utils.hashcode], which the module does
    not define.  "A polynomial hash over UTF-16 code units, multiplier 31,
    accumulated with wraparound 32-bit signed arithmetic." *)
Definition hashcode (s : pystr) : Z :=
  fold_left (fun h u => int_overflow (31 * h + u)) (utf16 s) 0.

(** Modelled from the spec: [pyignite.utils.cache_id], which the module
    imports.  "If given an integer, returns it unchanged (already an
    identifier).  If given a string, computes a hash." *)
Definition cache_id (cache : Cache) : Z :=
  match cache with
  | CacheId n => n
  | CacheName s => hashcode s
  end.

Definition int32 (z : Z) : Prop := - 2 ^ 31 <= z < 2 ^ 31.

(** ** Queries and results *)

(** The operation codes the module takes from [pyignite.queries.op_codes]. *)
Inductive OpCode : Type :=
| OP_CACHE_GET | OP_CACHE_PUT | OP_CACHE_PUT_IF_ABSENT | OP_CACHE_GET_ALL
| OP_CACHE_PUT_ALL | OP_CACHE_GET_AND_PUT | OP_CACHE_GET_AND_REPLACE
| OP_CACHE_GET_AND_REMOVE | OP_CACHE_GET_AND_PUT_IF_ABSENT | OP_CACHE_REPLACE
| OP_CACHE_REPLACE_IF_EQUALS | OP_CACHE_CONTAINS_KEY | OP_CACHE_CONTAINS_KEYS
| OP_CACHE_CLEAR | OP_CACHE_CLEAR_KEY | OP_CACHE_CLEAR_KEYS
| OP_CACHE_REMOVE_KEY | OP_CACHE_REMOVE_IF_EQUALS | OP_CACHE_REMOVE_KEYS
| OP_CACHE_REMOVE_ALL | OP_CACHE_GET_SIZE.

(** A schema: field names with their type descriptors, in order.  A
    descriptor is whatever object the source puts there (a hint is a caller's
    value). *)
Definition Schema := list (string * PyValue).

(** A parameter dictionary, in the order the source writes its items. *)
Definition Params := list (string * PyValue).

(** [Query(op_code, following, query_id=...)]: what the constructor is
    given. *)
Record Query : Type := mkQuery {
  op_code : OpCode;
  following : Schema;
  query_id : option Z
}.

(** [APIResult]: status, message, query id, and the [value] attribute the
    operations reassign.  The attributes live in a module of their own, as
    the operations have arguments called [value] and [query_id]. *)
Module Result.
Record APIResult : Type := mkAPIResult {
  status : Z;
  message : string;
  query_id : Z;
  value : PyValue
}.
End Result.
Abbreviation APIResult := Result.APIResult.

(** [result.value = v]. *)
Definition set_value (result : APIResult) (v : PyValue) : APIResult :=
  {| Result.status := Result.status result;
     Result.message := Result.message result;
     Result.query_id := Result.query_id result;
     Result.value := v |}.

(** ** Computations

    A call runs against the world outside the module (the connection's
    socket, the server, the source of fresh query ids): it takes the world
    and yields an outcome and the world it leaves. *)
Definition M (World A : Type) : Type := World -> outcome A * World.

Definition ret {World A : Type} (a : A) : M World A :=
  fun w => (Ok a, w).

Definition bind {World A B : Type} (c : M World A) (k : A -> M World B)
  : M World B :=
  fun w =>
    match c w with
    | (Ok a, w') => k a w'
    | (Raise e, w') => (Raise e, w')
    end.

(** An expression of the module that may raise, evaluated in place. *)
Definition eval {World A : Type} (o : outcome A) : M World A :=
  fun w => (o, w).

Notation "x <- c ;; k" := (bind c (fun x => k))
  (at level 100, c at next level, right associativity).

(** What one [perform] is called with. *)
Record Request : Type := mkRequest {
  req_query : Query;
  req_params : Params;
  req_config : option Schema
}.

(** The type of [Query.perform(connection, query_params, response_config)];
    [response_config] is [None] when the caller leaves it out. *)
Definition Perform (World Connection : Type) : Type :=
  Query -> Connection -> Params -> option Schema -> M World APIResult.

(** ** The operations

    One definition per function of the module, in the order of the source.
    Optional arguments are passed explicitly: [PyNone] for an omitted hint,
    [PyBool false] for [binary], [None] for [query_id], [PyInt 0] for
    [peek_modes]. *)

Section Operations.

Context {World Connection : Type}.
Variable perform : Perform World Connection.

Definition cache_put (connection : Connection) (cache : Cache)
    (key value key_hint value_hint binary : PyValue) (query_id : option Z)
  : M World APIResult :=
  let query_struct :=
    mkQuery OP_CACHE_PUT
      [("hash_code", PyType Int);
       ("flag", PyType Byte);
       ("key", py_or key_hint (PyType AnyDataObject));
       ("value", py_or value_hint (PyType AnyDataObject))]
      query_id in
  perform query_struct connection
      [("hash_code", PyInt (cache_id cache));
       ("flag", PyInt (if py_bool binary then 1 else 0));
       ("key", key);
       ("value", value)]
    None.

Definition cache_get (connection : Connection) (cache : Cache)
    (key key_hint binary : PyValue) (query_id : option Z)
  : M World APIResult :=
  let query_struct :=
    mkQuery OP_CACHE_GET
      [("hash_code", PyType Int);
       ("flag", PyType Byte);
       ("key", py_or key_hint (PyType AnyDataObject))]
      query_id in
  result <- perform query_struct connection
      [("hash_code", PyInt (cache_id cache));
       ("flag", PyInt (if py_bool binary then 1 else 0));
       ("key", key)]
    (Some [("value", PyType AnyDataObject)]) ;;
  if negb (Result.status result =? 0) then ret result
  else
    v <- eval (py_getitem (Result.value result) "value") ;;
    ret (set_value result v).

Definition cache_get_all (connection : Connection) (cache : Cache)
    (keys binary : PyValue) (query_id : option Z)
  : M World APIResult :=
  let query_struct :=
    mkQuery OP_CACHE_GET_ALL
      [("hash_code", PyType Int);
       ("flag", PyType Byte);
       ("keys", PyType AnyDataArray)]
      query_id in
  result <- perform query_struct connection
      [("hash_code", PyInt (cache_id cache));
       ("flag", PyInt (if py_bool binary then 1 else 0));
       ("keys", keys)]
    (Some [("data", PyType Map)]) ;;
  if Result.status result =? 0 then
    d <- eval (py_dict (Result.value result)) ;;
    v <- eval (py_getitem d "data") ;;
    ret (set_value result v)
  else ret result.

Definition cache_put_all (connection : Connection) (cache : Cache)
    (pairs binary : PyValue) (query_id : option Z)
  : M World APIResult :=
  let query_struct :=
    mkQuery OP_CACHE_PUT_ALL
      [("hash_code", PyType Int);
       ("flag", PyType Byte);
       ("data", PyType Map)]
      query_id in
  perform query_struct connection
      [("hash_code", PyInt (cache_id cache));
       ("flag", PyInt (if py_bool binary then 1 else 0));
       ("data", pairs)]
    None.

Definition cache_contains_key (connection : Connection) (cache : Cache)
    (key key_hint binary : PyValue) (query_id : option Z)
  : M World APIResult :=
  let query_struct :=
    mkQuery OP_CACHE_CONTAINS_KEY
      [("hash_code", PyType Int);
       ("flag", PyType Byte);
       ("key", py_or key_hint (PyType AnyDataObject))]
      query_id in
  result <- perform query_struct connection
      [("hash_code", PyInt (cache_id cache));
       ("flag", PyInt (if py_bool binary then 1 else 0));
       ("key", key)]
    (Some [("value", PyType Bool)]) ;;
  if Result.status result =? 0 then
    v <- eval (py_getitem (Result.value result) "value") ;;
    ret (set_value result v)
  else ret result.

Definition cache_contains_keys (connection : Connection) (cache : Cache)
    (keys binary : PyValue) (query_id : option Z)
  : M World APIResult :=
  let query_struct :=
    mkQuery OP_CACHE_CONTAINS_KEYS
      [("hash_code", PyType Int);
       ("flag", PyType Byte);
       ("keys", PyType AnyDataArray)]
      query_id in
  result <- perform query_struct connection
      [("hash_code", PyInt (cache_id cache));
       ("flag", PyInt (if py_bool binary then 1 else 0));
       ("keys", keys)]
    (Some [("value", PyType Bool)]) ;;
  if Result.status result =? 0 then
    v <- eval (py_getitem (Result.value result) "value") ;;
    ret (set_value result v)
  else ret result.

Definition cache_get_and_put (connection : Connection) (cache : Cache)
    (key value key_hint value_hint binary : PyValue) (query_id : option Z)
  : M World APIResult :=
  let query_struct :=
    mkQuery OP_CACHE_GET_AND_PUT
      [("hash_code", PyType Int);
       ("flag", PyType Byte);
       ("key", py_or key_hint (PyType AnyDataObject));
       ("value", py_or value_hint (PyType AnyDataObject))]
      query_id in
  result <- perform query_struct connection
      [("hash_code", PyInt (cache_id cache));
       ("flag", PyInt (if py_bool binary then 1 else 0));
       ("key", key);
       ("value", value)]
    (Some [("value", PyType AnyDataObject)]) ;;
  if Result.status result =? 0 then
    v <- eval (py_getitem (Result.value result) "value") ;;
    ret (set_value result v)
  else ret result.

Definition cache_get_and_replace (connection : Connection) (cache : Cache)
    (key value key_hint value_hint binary : PyValue) (query_id : option Z)
  : M World APIResult :=
  let query_struct :=
    mkQuery OP_CACHE_GET_AND_REPLACE
      [("hash_code", PyType Int);
       ("flag", PyType Byte);
       ("key", py_or key_hint (PyType AnyDataObject));
       ("value", py_or value_hint (PyType AnyDataObject))]
      query_id in
  result <- perform query_struct connection
      [("hash_code", PyInt (cache_id cache));
       ("flag", PyInt (if py_bool binary then 1 else 0));
       ("key", key);
       ("value", value)]
    (Some [("value", PyType AnyDataObject)]) ;;
  if Result.status result =? 0 then
    v <- eval (py_getitem (Result.value result) "value") ;;
    ret (set_value result v)
  else ret result.

Definition cache_get_and_remove (connection : Connection) (cache : Cache)
    (key key_hint binary : PyValue) (query_id : option Z)
  : M World APIResult :=
  let query_struct :=
    mkQuery OP_CACHE_GET_AND_REMOVE
      [("hash_code", PyType Int);
       ("flag", PyType Byte);
       ("key", py_or key_hint (PyType AnyDataObject))]
      query_id in
  result <- perform query_struct connection
      [("hash_code", PyInt (cache_id cache));
       ("flag", PyInt (if py_bool binary then 1 else 0));
       ("key", key)]
    (Some [("value", PyType AnyDataObject)]) ;;
  if Result.status result =? 0 then
    v <- eval (py_getitem (Result.value result) "value") ;;
    ret (set_value result v)
  else ret result.

Definition cache_put_if_absent (connection : Connection) (cache : Cache)
    (key value key_hint value_hint binary : PyValue) (query_id : option Z)
  : M World APIResult :=
  let query_struct :=
    mkQuery OP_CACHE_PUT_IF_ABSENT
      [("hash_code", PyType Int);
       ("flag", PyType Byte);
       ("key", py_or key_hint (PyType AnyDataObject));
       ("value", py_or value_hint (PyType AnyDataObject))]
      query_id in
  result <- perform query_struct connection
      [("hash_code", PyInt (cache_id cache));
       ("flag", PyInt (if py_bool binary then 1 else 0));
       ("key", key);
       ("value", value)]
    (Some [("success", PyType Bool)]) ;;
  if Result.status result =? 0 then
    v <- eval (py_getitem (Result.value result) "success") ;;
    ret (set_value result v)
  else ret result.

Definition cache_get_and_put_if_absent (connection : Connection) (cache : Cache)
    (key value key_hint value_hint binary : PyValue) (query_id : option Z)
  : M World APIResult :=
  let query_struct :=
    mkQuery OP_CACHE_GET_AND_PUT_IF_ABSENT
      [("hash_code", PyType Int);
       ("flag", PyType Byte);
       ("key", py_or key_hint (PyType AnyDataObject));
       ("value", py_or value_hint (PyType AnyDataObject))]
      query_id in
  result <- perform query_struct connection
      [("hash_code", PyInt (cache_id cache));
       ("flag", PyInt (if py_bool binary then 1 else 0));
       ("key", key);
       ("value", value)]
    (Some [("value", PyType AnyDataObject)]) ;;
  if Result.status result =? 0 then
    v <- eval (py_getitem (Result.value result) "value") ;;
    ret (set_value result v)
  else ret result.

Definition cache_replace (connection : Connection) (cache : Cache)
    (key value key_hint value_hint binary : PyValue) (query_id : option Z)
  : M World APIResult :=
  let query_struct :=
    mkQuery OP_CACHE_REPLACE
      [("hash_code", PyType Int);
       ("flag", PyType Byte);
       ("key", py_or key_hint (PyType AnyDataObject));
       ("value", py_or value_hint (PyType AnyDataObject))]
      query_id in
  result <- perform query_struct connection
      [("hash_code", PyInt (cache_id cache));
       ("flag", PyInt (if py_bool binary then 1 else 0));
       ("key", key);
       ("value", value)]
    (Some [("success", PyType Bool)]) ;;
  if Result.status result =? 0 then
    v <- eval (py_getitem (Result.value result) "success") ;;
    ret (set_value result v)
  else ret result.

Definition cache_replace_if_equals (connection : Connection) (cache : Cache)
    (key sample value key_hint sample_hint value_hint binary : PyValue) (query_id : option Z)
  : M World APIResult :=
  let query_struct :=
    mkQuery OP_CACHE_REPLACE_IF_EQUALS
      [("hash_code", PyType Int);
       ("flag", PyType Byte);
       ("key", py_or key_hint (PyType AnyDataObject));
       ("sample", py_or sample_hint (PyType AnyDataObject));
       ("value", py_or value_hint (PyType AnyDataObject))]
      query_id in
  result <- perform query_struct connection
      [("hash_code", PyInt (cache_id cache));
       ("flag", PyInt (if py_bool binary then 1 else 0));
       ("key", key);
       ("sample", sample);
       ("value", value)]
    (Some [("success", PyType Bool)]) ;;
  if Result.status result =? 0 then
    v <- eval (py_getitem (Result.value result) "success") ;;
    ret (set_value result v)
  else ret result.

Definition cache_clear (connection : Connection) (cache : Cache)
    (binary : PyValue) (query_id : option Z)
  : M World APIResult :=
  let query_struct :=
    mkQuery OP_CACHE_CLEAR
      [("hash_code", PyType Int);
       ("flag", PyType Byte)]
      query_id in
  perform query_struct connection
      [("hash_code", PyInt (cache_id cache));
       ("flag", PyInt (if py_bool binary then 1 else 0))]
    None.

Definition cache_clear_key (connection : Connection) (cache : Cache)
    (key key_hint binary : PyValue) (query_id : option Z)
  : M World APIResult :=
  let query_struct :=
    mkQuery OP_CACHE_CLEAR_KEY
      [("hash_code", PyType Int);
       ("flag", PyType Byte);
       ("key", py_or key_hint (PyType AnyDataObject))]
      query_id in
  perform query_struct connection
      [("hash_code", PyInt (cache_id cache));
       ("flag", PyInt (if py_bool binary then 1 else 0));
       ("key", key)]
    None.

Definition cache_clear_keys (connection : Connection) (cache : Cache)
    (keys binary : PyValue) (query_id : option Z)
  : M World APIResult :=
  let query_struct :=
    mkQuery OP_CACHE_CLEAR_KEYS
      [("hash_code", PyType Int);
       ("flag", PyType Byte);
       ("keys", PyType AnyDataArray)]
      query_id in
  perform query_struct connection
      [("hash_code", PyInt (cache_id cache));
       ("flag", PyInt (if py_bool binary then 1 else 0));
       ("keys", keys)]
    None.

Definition cache_remove_key (connection : Connection) (cache : Cache)
    (key key_hint binary : PyValue) (query_id : option Z)
  : M World APIResult :=
  let query_struct :=
    mkQuery OP_CACHE_REMOVE_KEY
      [("hash_code", PyType Int);
       ("flag", PyType Byte);
       ("key", py_or key_hint (PyType AnyDataObject))]
      query_id in
  result <- perform query_struct connection
      [("hash_code", PyInt (cache_id cache));
       ("flag", PyInt (if py_bool binary then 1 else 0));
       ("key", key)]
    (Some [("success", PyType Bool)]) ;;
  if Result.status result =? 0 then
    v <- eval (py_getitem (Result.value result) "success") ;;
    ret (set_value result v)
  else ret result.

Definition cache_remove_if_equals (connection : Connection) (cache : Cache)
    (key sample key_hint sample_hint binary : PyValue) (query_id : option Z)
  : M World APIResult :=
  let query_struct :=
    mkQuery OP_CACHE_REMOVE_IF_EQUALS
      [("hash_code", PyType Int);
       ("flag", PyType Byte);
       ("key", py_or key_hint (PyType AnyDataObject));
       ("sample", py_or sample_hint (PyType AnyDataObject))]
      query_id in
  result <- perform query_struct connection
      [("hash_code", PyInt (cache_id cache));
       ("flag", PyInt (if py_bool binary then 1 else 0));
       ("key", key);
       ("sample", sample)]
    (Some [("success", PyType Bool)]) ;;
  if Result.status result =? 0 then
    v <- eval (py_getitem (Result.value result) "success") ;;
    ret (set_value result v)
  else ret result.

Definition cache_remove_keys (connection : Connection) (cache : Cache)
    (keys binary : PyValue) (query_id : option Z)
  : M World APIResult :=
  let query_struct :=
    mkQuery OP_CACHE_REMOVE_KEYS
      [("hash_code", PyType Int);
       ("flag", PyType Byte);
       ("keys", PyType AnyDataArray)]
      query_id in
  perform query_struct connection
      [("hash_code", PyInt (cache_id cache));
       ("flag", PyInt (if py_bool binary then 1 else 0));
       ("keys", keys)]
    None.

Definition cache_remove_all (connection : Connection) (cache : Cache)
    (binary : PyValue) (query_id : option Z)
  : M World APIResult :=
  let query_struct :=
    mkQuery OP_CACHE_REMOVE_ALL
      [("hash_code", PyType Int);
       ("flag", PyType Byte)]
      query_id in
  perform query_struct connection
      [("hash_code", PyInt (cache_id cache));
       ("flag", PyInt (if py_bool binary then 1 else 0))]
    None.

Definition cache_get_size (connection : Connection) (cache : Cache)
    (peek_modes binary : PyValue) (query_id : option Z)
  : M World APIResult :=
  let peek_modes :=
    if negb (is_list_or_tuple peek_modes) then
      if py_eq_int peek_modes 0 then PyList []
      else PyList [peek_modes]
    else peek_modes in
  let query_struct :=
    mkQuery OP_CACHE_GET_SIZE
      [("hash_code", PyType Int);
       ("flag", PyType Byte);
       ("peek_modes", PyType PeekModes)]
      query_id in
  result <- perform query_struct connection
      [("hash_code", PyInt (cache_id cache));
       ("flag", PyInt (if py_bool binary then 1 else 0));
       ("peek_modes", peek_modes)]
    (Some [("count", PyType Long)]) ;;
  if Result.status result =? 0 then
    v <- eval (py_getitem (Result.value result) "count") ;;
    ret (set_value result v)
  else ret result.

End Operations.

(** ** Calls

    A call of the module: the function and its arguments (the connection
    apart).  [run] is the call itself. *)
Inductive Call : Type :=
| CachePut (cache : Cache) (key value key_hint value_hint binary : PyValue) (query_id : option Z)
| CacheGet (cache : Cache) (key key_hint binary : PyValue) (query_id : option Z)
| CacheGetAll (cache : Cache) (keys binary : PyValue) (query_id : option Z)
| CachePutAll (cache : Cache) (pairs binary : PyValue) (query_id : option Z)
| CacheContainsKey (cache : Cache) (key key_hint binary : PyValue) (query_id : option Z)
| CacheContainsKeys (cache : Cache) (keys binary : PyValue) (query_id : option Z)
| CacheGetAndPut (cache : Cache) (key value key_hint value_hint binary : PyValue) (query_id : option Z)
| CacheGetAndReplace (cache : Cache) (key value key_hint value_hint binary : PyValue) (query_id : option Z)
| CacheGetAndRemove (cache : Cache) (key key_hint binary : PyValue) (query_id : option Z)
| CachePutIfAbsent (cache : Cache) (key value key_hint value_hint binary : PyValue) (query_id : option Z)
| CacheGetAndPutIfAbsent (cache : Cache) (key value key_hint value_hint binary : PyValue) (query_id : option Z)
| CacheReplace (cache : Cache) (key value key_hint value_hint binary : PyValue) (query_id : option Z)
| CacheReplaceIfEquals (cache : Cache) (key sample value key_hint sample_hint value_hint binary : PyValue) (query_id : option Z)
| CacheClear (cache : Cache) (binary : PyValue) (query_id : option Z)
| CacheClearKey (cache : Cache) (key key_hint binary : PyValue) (query_id : option Z)
| CacheClearKeys (cache : Cache) (keys binary : PyValue) (query_id : option Z)
| CacheRemoveKey (cache : Cache) (key key_hint binary : PyValue) (query_id : option Z)
| CacheRemoveIfEquals (cache : Cache) (key sample key_hint sample_hint binary : PyValue) (query_id : option Z)
| CacheRemoveKeys (cache : Cache) (keys binary : PyValue) (query_id : option Z)
| CacheRemoveAll (cache : Cache) (binary : PyValue) (query_id : option Z)
| CacheGetSize (cache : Cache) (peek_modes binary : PyValue) (query_id : option Z).

Definition run {World Connection : Type} (perform : Perform World Connection)
    (connection : Connection) (call : Call) : M World APIResult :=
  match call with
  | CachePut cache key value key_hint value_hint binary query_id =>
      cache_put perform connection cache key value key_hint value_hint binary query_id
  | CacheGet cache key key_hint binary query_id =>
      cache_get perform connection cache key key_hint binary query_id
  | CacheGetAll cache keys binary query_id =>
      cache_get_all perform connection cache keys binary query_id
  | CachePutAll cache pairs binary query_id =>
      cache_put_all perform connection cache pairs binary query_id
  | CacheContainsKey cache key key_hint binary query_id =>
      cache_contains_key perform connection cache key key_hint binary query_id
  | CacheContainsKeys cache keys binary query_id =>
      cache_contains_keys perform connection cache keys binary query_id
  | CacheGetAndPut cache key value key_hint value_hint binary query_id =>
      cache_get_and_put perform connection cache key value key_hint value_hint binary query_id
  | CacheGetAndReplace cache key value key_hint value_hint binary query_id =>
      cache_get_and_replace perform connection cache key value key_hint value_hint binary query_id
  | CacheGetAndRemove cache key key_hint binary query_id =>
      cache_get_and_remove perform connection cache key key_hint binary query_id
  | CachePutIfAbsent cache key value key_hint value_hint binary query_id =>
      cache_put_if_absent perform connection cache key value key_hint value_hint binary query_id
  | CacheGetAndPutIfAbsent cache key value key_hint value_hint binary query_id =>
      cache_get_and_put_if_absent perform connection cache key value key_hint value_hint binary query_id
  | CacheReplace cache key value key_hint value_hint binary query_id =>
      cache_replace perform connection cache key value key_hint value_hint binary query_id
  | CacheReplaceIfEquals cache key sample value key_hint sample_hint value_hint binary query_id =>
      cache_replace_if_equals perform connection cache key sample value key_hint sample_hint value_hint binary query_id
  | CacheClear cache binary query_id =>
      cache_clear perform connection cache binary query_id
  | CacheClearKey cache key key_hint binary query_id =>
      cache_clear_key perform connection cache key key_hint binary query_id
  | CacheClearKeys cache keys binary query_id =>
      cache_clear_keys perform connection cache keys binary query_id
  | CacheRemoveKey cache key key_hint binary query_id =>
      cache_remove_key perform connection cache key key_hint binary query_id
  | CacheRemoveIfEquals cache key sample key_hint sample_hint binary query_id =>
      cache_remove_if_equals perform connection cache key sample key_hint sample_hint binary query_id
  | CacheRemoveKeys cache keys binary query_id =>
      cache_remove_keys perform connection cache keys binary query_id
  | CacheRemoveAll cache binary query_id =>
      cache_remove_all perform connection cache binary query_id
  | CacheGetSize cache peek_modes binary query_id =>
      cache_get_size perform connection cache peek_modes binary query_id
  end.

(** The [cache] argument of a call. *)
Definition call_cache (call : Call) : Cache :=
  match call with
  | CachePut cache _ _ _ _ _ _ => cache
  | CacheGet cache _ _ _ _ => cache
  | CacheGetAll cache _ _ _ => cache
  | CachePutAll cache _ _ _ => cache
  | CacheContainsKey cache _ _ _ _ => cache
  | CacheContainsKeys cache _ _ _ => cache
  | CacheGetAndPut cache _ _ _ _ _ _ => cache
  | CacheGetAndReplace cache _ _ _ _ _ _ => cache
  | CacheGetAndRemove cache _ _ _ _ => cache
  | CachePutIfAbsent cache _ _ _ _ _ _ => cache
  | CacheGetAndPutIfAbsent cache _ _ _ _ _ _ => cache
  | CacheReplace cache _ _ _ _ _ _ => cache
  | CacheReplaceIfEquals cache _ _ _ _ _ _ _ _ => cache
  | CacheClear cache _ _ => cache
  | CacheClearKey cache _ _ _ _ => cache
  | CacheClearKeys cache _ _ _ => cache
  | CacheRemoveKey cache _ _ _ _ => cache
  | CacheRemoveIfEquals cache _ _ _ _ _ _ => cache
  | CacheRemoveKeys cache _ _ _ => cache
  | CacheRemoveAll cache _ _ => cache
  | CacheGetSize cache _ _ _ => cache
  end.

(** The [binary] argument of a call. *)
Definition call_binary (call : Call) : PyValue :=
  match call with
  | CachePut _ _ _ _ _ binary _ => binary
  | CacheGet _ _ _ binary _ => binary
  | CacheGetAll _ _ binary _ => binary
  | CachePutAll _ _ binary _ => binary
  | CacheContainsKey _ _ _ binary _ => binary
  | CacheContainsKeys _ _ binary _ => binary
  | CacheGetAndPut _ _ _ _ _ binary _ => binary
  | CacheGetAndReplace _ _ _ _ _ binary _ => binary
  | CacheGetAndRemove _ _ _ binary _ => binary
  | CachePutIfAbsent _ _ _ _ _ binary _ => binary
  | CacheGetAndPutIfAbsent _ _ _ _ _ binary _ => binary
  | CacheReplace _ _ _ _ _ binary _ => binary
  | CacheReplaceIfEquals _ _ _ _ _ _ _ binary _ => binary
  | CacheClear _ binary _ => binary
  | CacheClearKey _ _ _ binary _ => binary
  | CacheClearKeys _ _ binary _ => binary
  | CacheRemoveKey _ _ _ binary _ => binary
  | CacheRemoveIfEquals _ _ _ _ _ binary _ => binary
  | CacheRemoveKeys _ _ binary _ => binary
  | CacheRemoveAll _ binary _ => binary
  | CacheGetSize _ _ binary _ => binary
  end.

(** The [query_id] argument of a call. *)
Definition call_query_id (call : Call) : option Z :=
  match call with
  | CachePut _ _ _ _ _ _ query_id => query_id
  | CacheGet _ _ _ _ query_id => query_id
  | CacheGetAll _ _ _ query_id => query_id
  | CachePutAll _ _ _ query_id => query_id
  | CacheContainsKey _ _ _ _ query_id => query_id
  | CacheContainsKeys _ _ _ query_id => query_id
  | CacheGetAndPut _ _ _ _ _ _ query_id => query_id
  | CacheGetAndReplace _ _ _ _ _ _ query_id => query_id
  | CacheGetAndRemove _ _ _ _ query_id => query_id
  | CachePutIfAbsent _ _ _ _ _ _ query_id => query_id
  | CacheGetAndPutIfAbsent _ _ _ _ _ _ query_id => query_id
  | CacheReplace _ _ _ _ _ _ query_id => query_id
  | CacheReplaceIfEquals _ _ _ _ _ _ _ _ query_id => query_id
  | CacheClear _ _ query_id => query_id
  | CacheClearKey _ _ _ _ query_id => query_id
  | CacheClearKeys _ _ _ query_id => query_id
  | CacheRemoveKey _ _ _ _ query_id => query_id
  | CacheRemoveIfEquals _ _ _ _ _ _ query_id => query_id
  | CacheRemoveKeys _ _ _ query_id => query_id
  | CacheRemoveAll _ _ query_id => query_id
  | CacheGetSize _ _ _ query_id => query_id
  end.

(** The hint arguments of a call, each with the name of the request field it
    is for: [key_hint] types [key], [value_hint] types [value],
    [sample_hint] types [sample]. *)
Definition call_hints (call : Call) : list (string * PyValue) :=
  match call with
  | CachePut _ _ _ key_hint value_hint _ _ =>
      [("key", key_hint); ("value", value_hint)]
  | CacheGet _ _ key_hint _ _ =>
      [("key", key_hint)]
  | CacheGetAll _ _ _ _ =>
      []
  | CachePutAll _ _ _ _ =>
      []
  | CacheContainsKey _ _ key_hint _ _ =>
      [("key", key_hint)]
  | CacheContainsKeys _ _ _ _ =>
      []
  | CacheGetAndPut _ _ _ key_hint value_hint _ _ =>
      [("key", key_hint); ("value", value_hint)]
  | CacheGetAndReplace _ _ _ key_hint value_hint _ _ =>
      [("key", key_hint); ("value", value_hint)]
  | CacheGetAndRemove _ _ key_hint _ _ =>
      [("key", key_hint)]
  | CachePutIfAbsent _ _ _ key_hint value_hint _ _ =>
      [("key", key_hint); ("value", value_hint)]
  | CacheGetAndPutIfAbsent _ _ _ key_hint value_hint _ _ =>
      [("key", key_hint); ("value", value_hint)]
  | CacheReplace _ _ _ key_hint value_hint _ _ =>
      [("key", key_hint); ("value", value_hint)]
  | CacheReplaceIfEquals _ _ _ _ key_hint sample_hint value_hint _ _ =>
      [("key", key_hint); ("sample", sample_hint); ("value", value_hint)]
  | CacheClear _ _ _ =>
      []
  | CacheClearKey _ _ key_hint _ _ =>
      [("key", key_hint)]
  | CacheClearKeys _ _ _ _ =>
      []
  | CacheRemoveKey _ _ key_hint _ _ =>
      [("key", key_hint)]
  | CacheRemoveIfEquals _ _ _ key_hint sample_hint _ _ =>
      [("key", key_hint); ("sample", sample_hint)]
  | CacheRemoveKeys _ _ _ _ =>
      []
  | CacheRemoveAll _ _ _ =>
      []
  | CacheGetSize _ _ _ _ =>
      []
  end.

(** ** Observing the exchange

    A [perform] that notes what it is called with and answers with a given
    outcome: the world is the list of requests made so far. *)
Definition recording (answer : outcome APIResult) : Perform (list Request) unit :=
  fun query _ params config log =>
    (answer, log ++ [mkRequest query params config]).

(** The requests a call makes, when each is answered by [answer]. *)
Definition requests (answer : outcome APIResult) (call : Call) : list Request :=
  snd (run (recording answer) tt call []).

(** The request of a call: the first one it makes when the exchange fails. *)
Definition request_of (call : Call) : Request :=
  hd (mkRequest (mkQuery OP_CACHE_GET [] None) [] None)
     (requests (Raise TransportError) call).

(** [perform] on the request of a call. *)
Definition exchange {World Connection : Type} (perform : Perform World Connection)
    (connection : Connection) (call : Call) : M World APIResult :=
  perform (req_query (request_of call)) connection
          (req_params (request_of call)) (req_config (request_of call)).

(** The entry of a schema (a descriptor) or of a parameter dictionary (a
    value) under a name. *)
Fixpoint entry (fields : list (string * PyValue)) (name : string)
  : option PyValue :=
  match fields with
  | [] => None
  | (n, x) :: fields' => if String.eqb n name then Some x else entry fields' name
  end.

(** Type resolution as the specification words it: "explicit hint always
    wins; absent a hint, use AnyValue". *)
Definition resolve (hint : option DataType) : DataType :=
  match hint with
  | Some t => t
  | None => AnyDataObject
  end.

(** A hint argument: a data type, or [None] when the caller gives none. *)
Definition hint_arg (hint : option DataType) : PyValue :=
  match hint with
  | Some t => PyType t
  | None => PyNone
  end.

(** What a call makes of the outcome of its exchange: the call run against
    the recording [perform], which answers with that outcome. *)
Definition project (call : Call) (answer : outcome APIResult) : outcome APIResult :=
  fst (run (recording answer) tt call []).

(** ** Sample data

    A cache, results and calls on which the properties below are
    exercised. *)
Definition my_cache : Cache := CacheName (text "SQL_PUBLIC_MYCACHE").

Definition failed : APIResult :=
  {| Result.status := 1;
     Result.message := "Cache does not exist";
     Result.query_id := 7;
     Result.value := PyNone |}.

Definition replaced : APIResult :=
  {| Result.status := 0;
     Result.message := "";
     Result.query_id := 7;
     Result.value := PyDict [(PyStr (text "success"), PyBool true)] |}.

Definition one_entry : PyValue :=
  PyDict [(PyInt 1, PyStr (text "a"))].

Definition fetched : APIResult :=
  {| Result.status := 0;
     Result.message := "";
     Result.query_id := 7;
     Result.value := PyDict [(PyStr (text "data"), one_entry)] |}.

Definition replace_call : Call :=
  CacheReplaceIfEquals my_cache (PyInt 1) (PyStr (text "a")) (PyStr (text "b"))
    (PyType (DataClass "IntObject")) PyNone PyNone (PyBool false) (Some 7).

Definition get_all_call : Call :=
  CacheGetAll my_cache (PyList [PyInt 1; PyInt 2]) (PyBool false) (Some 7).

Definition get_call : Call :=
  CacheGet (CacheId 42) (PyInt 1) PyNone (PyBool true) None.

(** A [perform] that answers with a given outcome and forgets the requests
    made before. *)
Definition forgetful (answer : outcome APIResult) : Perform (list Request) unit :=
  fun _ _ _ _ _ => (answer, []).

(** ** The projection, written once

    The functions with a one-field response all end the same way: on status
    0 the field replaces [value], otherwise the result is returned as it is.
    [unwrap] is that ending as one function of the field name, to compare the
    functions with. *)
Definition unwrap (name : string) (answer : outcome APIResult)
  : outcome APIResult :=
  match answer with
  | Ok result =>
      if Result.status result =? 0 then
        match py_getitem (Result.value result) name with
        | Ok v => Ok (set_value result v)
        | Raise e => Raise e
        end
      else Ok result
  | Raise e => Raise e
  end.

(** The name of the function a call is a call of. *)
Definition function_name (call : Call) : string :=
  match call with
  | CachePut _ _ _ _ _ _ _ => "cache_put"
  | CacheGet _ _ _ _ _ => "cache_get"
  | CacheGetAll _ _ _ _ => "cache_get_all"
  | CachePutAll _ _ _ _ => "cache_put_all"
  | CacheContainsKey _ _ _ _ _ => "cache_contains_key"
  | CacheContainsKeys _ _ _ _ => "cache_contains_keys"
  | CacheGetAndPut _ _ _ _ _ _ _ => "cache_get_and_put"
  | CacheGetAndReplace _ _ _ _ _ _ _ => "cache_get_and_replace"
  | CacheGetAndRemove _ _ _ _ _ => "cache_get_and_remove"
  | CachePutIfAbsent _ _ _ _ _ _ _ => "cache_put_if_absent"
  | CacheGetAndPutIfAbsent _ _ _ _ _ _ _ => "cache_get_and_put_if_absent"
  | CacheReplace _ _ _ _ _ _ _ => "cache_replace"
  | CacheReplaceIfEquals _ _ _ _ _ _ _ _ _ => "cache_replace_if_equals"
  | CacheClear _ _ _ => "cache_clear"
  | CacheClearKey _ _ _ _ _ => "cache_clear_key"
  | CacheClearKeys _ _ _ _ => "cache_clear_keys"
  | CacheRemoveKey _ _ _ _ _ => "cache_remove_key"
  | CacheRemoveIfEquals _ _ _ _ _ _ _ => "cache_remove_if_equals"
  | CacheRemoveKeys _ _ _ _ => "cache_remove_keys"
  | CacheRemoveAll _ _ _ => "cache_remove_all"
  | CacheGetSize _ _ _ _ => "cache_get_size"
  end.

(** A response field as an item of a sequence of pairs: the tuple
    [(name, v)]. *)
Definition pair_item (field : pystr * PyValue) : PyValue :=
  PyTuple [PyStr (fst field); snd field].

(** The value of the last field called [name] in a sequence of fields,
    [found] when there is none. *)
Fixpoint last_named (fields : list (pystr * PyValue)) (name : pystr)
    (found : option PyValue) : option PyValue :=
  match fields with
  | [] => found
  | (n, v) :: fields' =>
      last_named fields' name (if pystr_eqb n name then Some v else found)
  end.

(** More sample data: results a well-behaved [perform] would not give. *)
Definition no_fields : APIResult :=
  {| Result.status := 0;
     Result.message := "";
     Result.query_id := 7;
     Result.value := PyNone |}.

Definition other_fields : APIResult :=
  {| Result.status := 0;
     Result.message := "";
     Result.query_id := 7;
     Result.value := PyDict [(PyStr (text "count"), PyInt 3)] |}.

Definition fetched_pairs : APIResult :=
  {| Result.status := 0;
     Result.message := "";
     Result.query_id := 7;
     Result.value :=
       PyList [pair_item (text "data", PyNone);
               pair_item (text "data", one_entry)] |}.


(** * Properties *)

(** ** The cache identifier *)

Lemma int_overflow_int32 (z : Z) : int32 (int_overflow z).
Proof.
  unfold int32, int_overflow.
  pose proof (Z.mod_pos_bound (z + 2 ^ 31) (2 ^ 32) ltac:(lia)). lia.
Qed.

Lemma int_overflow_id (z : Z) : int32 z -> int_overflow z = z.
Proof.
  unfold int32, int_overflow. intros H.
  rewrite Z.mod_small by lia. lia.
Qed.

Lemma hashcode_int32 (s : pystr) : int32 (hashcode s).
Proof.
  unfold hashcode.
  assert (G : forall us h, int32 h ->
            int32 (fold_left (fun h u => int_overflow (31 * h + u)) us h)).
  { induction us as [|u us IH]; intros h Hh; simpl; [exact Hh|].
    apply IH, int_overflow_int32. }
  apply G. unfold int32. lia.
Qed.

Example hashcode_abc : hashcode (text "abc") = 96354.
Proof. reflexivity. Qed.

Example hashcode_hello : hashcode (text "hello") = 99162322.
Proof. reflexivity. Qed.

Example hashcode_wraps : hashcode (text "polygenelubricants") = - 2 ^ 31.
Proof. reflexivity. Qed.

(** A code point outside the basic plane counts as its two surrogates. *)
Example hashcode_surrogates :
  hashcode [128512%N] = int_overflow (31 * 55357 + 56832).
Proof. reflexivity. Qed.

(** ** Every call is one exchange *)

Ltac unfold_call :=
  cbv [run requests request_of exchange recording
       cache_put cache_get cache_get_all cache_put_all cache_contains_key
       cache_contains_keys cache_get_and_put cache_get_and_replace
       cache_get_and_remove cache_put_if_absent cache_get_and_put_if_absent
       cache_replace cache_replace_if_equals cache_clear cache_clear_key
       cache_clear_keys cache_remove_key cache_remove_if_equals
       cache_remove_keys cache_remove_all cache_get_size
       bind ret eval hd snd fst app req_query req_params req_config].

(** Whatever the answer, a call makes exactly one request. *)
Lemma requests_once (answer : outcome APIResult) (call : Call) :
  requests answer call = [request_of call].
Proof.
  destruct call, answer as [r|e]; unfold_call; try reflexivity;
    destruct (Result.status r =? 0); simpl;
    repeat match goal with
           | |- context [match ?o with Ok _ => _ | Raise _ => _ end] => destruct o
           end; reflexivity.
Qed.

(** A call is its exchange followed by the projection of the outcome: the
    world is touched by the exchange alone. *)
Lemma run_factor {World Connection : Type} (perform : Perform World Connection)
    (connection : Connection) (call : Call) (w : World) :
  run perform connection call w =
  (project call (fst (exchange perform connection call w)),
   snd (exchange perform connection call w)).
Proof.
  destruct call; unfold project; unfold_call;
    match goal with
    | |- context [perform ?q ?c ?p ?rc ?w] =>
        destruct (perform q c p rc w) as [[r|e] w']
    end; try reflexivity;
    destruct (Result.status r =? 0); simpl;
    repeat match goal with
           | |- context [match ?o with Ok _ => _ | Raise _ => _ end] => destruct o
           end; reflexivity.
Qed.

(** ** The claims *)

(** C1. The cache identifier hasher is deterministic: two invocations with
    the same cache string yield the same identifier, a 32-bit one; and an
    integer cache id that is an int32 is returned unchanged. *)
Theorem cache_id_deterministic_identity (s1 s2 : pystr) (n : Z) :
  (s1 = s2 ->
   cache_id (CacheName s1) = cache_id (CacheName s2) /\
   int32 (cache_id (CacheName s1))) /\
  (int32 n -> cache_id (CacheId n) = n).
Proof.
  split.
  - intros ->. split; [reflexivity|]. apply hashcode_int32.
  - intros _. reflexivity.
Qed.

(** C2. The request of every call starts with the field [('hash_code', Int)]
    holding [cache_id(cache)], then the field [('flag', Byte)] holding 1 when
    [binary] is truthy and 0 otherwise; the fields of the operation come
    after, the parameters under the names of the schema. *)
Theorem request_starts_with_hash_code_and_flag (call : Call) :
  exists (fields : Schema) (params : Params),
    following (req_query (request_of call)) =
      ("hash_code", PyType Int) :: ("flag", PyType Byte) :: fields /\
    req_params (request_of call) =
      ("hash_code", PyInt (cache_id (call_cache call))) ::
      ("flag", PyInt (if py_bool (call_binary call) then 1 else 0)) :: params /\
    List.map fst params = List.map fst fields.
Proof.
  destruct call; unfold_call; cbn [following call_cache call_binary];
    eexists; eexists; repeat split; reflexivity.
Qed.

(** C3. When the exchange of a call yields a result of nonzero status, the
    call returns that very result, its [value] as [perform] left it, and
    leaves the world as the exchange left it.  This holds for every call, so
    for those that configure response fields. *)
Theorem nonzero_status_passes_through {World Connection : Type}
    (perform : Perform World Connection) (connection : Connection)
    (call : Call) (w w' : World) (result : APIResult) :
  exchange perform connection call w = (Ok result, w') ->
  Result.status result <> 0 ->
  run perform connection call w = (Ok result, w').
Proof.
  intros Hex Hst. rewrite run_factor, Hex. cbn [fst snd]. f_equal.
  apply Z.eqb_neq in Hst.
  destruct call; unfold project; unfold_call; try reflexivity;
    rewrite Hst; reflexivity.
Qed.

(** C4. For a call whose response schema is one field named [value],
    [success] or [count], a result of status 0 comes back with its [value]
    replaced by the decoded field of that name. *)
Theorem scalar_field_unwrapped {World Connection : Type}
    (perform : Perform World Connection) (connection : Connection)
    (call : Call) (w w' : World) (result : APIResult)
    (name : string) (type v : PyValue) :
  req_config (request_of call) = Some [(name, type)] ->
  name = "value" \/ name = "success" \/ name = "count" ->
  exchange perform connection call w = (Ok result, w') ->
  Result.status result = 0 ->
  py_getitem (Result.value result) name = Ok v ->
  run perform connection call w = (Ok (set_value result v), w').
Proof.
  intros Hcfg Hname Hex Hst Hget. rewrite run_factor, Hex. cbn [fst snd]. f_equal.
  apply Z.eqb_eq in Hst.
  destruct call; revert Hcfg; unfold project; unfold_call; intros Hcfg;
    try discriminate Hcfg; injection Hcfg as <- _;
    try (destruct Hname as [Hn|[Hn|Hn]]; discriminate Hn);
    rewrite Hst; cbn [negb]; rewrite Hget; reflexivity.
Qed.

(** C5. [cache_put], [cache_put_all], [cache_clear] and [cache_remove_all]
    call [perform] without a response schema and return what it returns,
    whatever the outcome. *)
Theorem no_payload_operations_return_exchange {World Connection : Type}
    (perform : Perform World Connection) (connection : Connection)
    (cache : Cache) (key value key_hint value_hint pairs binary : PyValue)
    (query_id : option Z) (w : World) :
  Forall (fun call =>
            req_config (request_of call) = None /\
            run perform connection call w = exchange perform connection call w)
    [CachePut cache key value key_hint value_hint binary query_id;
     CachePutAll cache pairs binary query_id;
     CacheClear cache binary query_id;
     CacheRemoveAll cache binary query_id].
Proof.
  repeat constructor.
Qed.

(** C6. A request field typed by a hint argument gets the hint as descriptor
    when the caller gives a data type, and [AnyDataObject] when the hint is
    [None]. *)
Theorem hint_or_any_data_object (call : Call) (field : string)
    (hint : option DataType) :
  In (field, hint_arg hint) (call_hints call) ->
  entry (following (req_query (request_of call))) field =
    Some (PyType (resolve hint)).
Proof.
  destruct call; cbn [call_hints In]; intros H;
    repeat (destruct H as [H|H]; [injection H as <- Hh|]);
    try contradiction;
    unfold_call; cbn [following entry String.eqb Ascii.eqb Bool.eqb];
    rewrite Hh; destruct hint; reflexivity.
Qed.

(** C7. [cache_get_all], on a result of status 0 whose fields hold a mapping
    under [data], returns the result with that mapping itself as [value]. *)
Theorem get_all_value_is_data_mapping {World Connection : Type}
    (perform : Perform World Connection) (connection : Connection)
    (cache : Cache) (keys binary : PyValue) (query_id : option Z)
    (w w' : World) (result : APIResult)
    (fields : list (PyValue * PyValue)) (mapping : PyValue) :
  let call := CacheGetAll cache keys binary query_id in
  exchange perform connection call w = (Ok result, w') ->
  Result.status result = 0 ->
  Result.value result = PyDict fields ->
  dict_getitem fields (text "data") = Some mapping ->
  req_config (request_of call) = Some [("data", PyType Map)] /\
  run perform connection call w = (Ok (set_value result mapping), w').
Proof.
  intros call Hex Hst Hval Hget. split; [reflexivity|].
  rewrite run_factor, Hex. cbn [fst snd]. f_equal.
  apply Z.eqb_eq in Hst.
  unfold project, call; unfold_call.
  rewrite Hst, Hval. cbn [py_dict py_getitem]. rewrite Hget. reflexivity.
Qed.

(** C8. [cache_get_size] sends [peek_modes] normalized: a list or tuple as it
    is; otherwise the empty list for 0 (any value equal to 0) and the
    one-item list of the value for anything else. *)
Theorem peek_modes_normalized (cache : Cache) (peek_modes binary : PyValue)
    (query_id : option Z) :
  let sent :=
    entry (req_params (request_of (CacheGetSize cache peek_modes binary query_id)))
          "peek_modes" in
  (is_list_or_tuple peek_modes = true -> sent = Some peek_modes) /\
  (peek_modes = PyInt 0 -> sent = Some (PyList [])) /\
  (is_list_or_tuple peek_modes = false ->
   (py_eq_int peek_modes 0 = true -> sent = Some (PyList [])) /\
   (py_eq_int peek_modes 0 = false -> sent = Some (PyList [peek_modes]))).
Proof.
  unfold_call. cbn [entry String.eqb Ascii.eqb Bool.eqb].
  split; [|split].
  - intros ->. reflexivity.
  - intros ->. reflexivity.
  - intros ->. split; intros ->; reflexivity.
Qed.

(** C9. A call is deterministic and keeps no state of its own: two
    invocations with the same arguments whose exchanges yield the same
    outcome return the same outcome, whatever [perform], connection and
    world each runs against; and the world an invocation leaves is the one
    its single exchange leaves. *)
Theorem calls_deterministic_stateless {World Connection : Type}
    (perform1 perform2 : Perform World Connection)
    (connection1 connection2 : Connection) (call : Call) (w1 w2 : World) :
  fst (exchange perform1 connection1 call w1) =
  fst (exchange perform2 connection2 call w2) ->
  fst (run perform1 connection1 call w1) = fst (run perform2 connection2 call w2) /\
  snd (run perform1 connection1 call w1) = snd (exchange perform1 connection1 call w1) /\
  snd (run perform2 connection2 call w2) = snd (exchange perform2 connection2 call w2).
Proof.
  intros H. rewrite !run_factor. cbn [fst snd]. rewrite H. auto.
Qed.

(** C10. In the conditional operations the sample comes before the new
    value: [cache_replace_if_equals] sends hash_code, flag, key, sample,
    value, and [cache_remove_if_equals] hash_code, flag, key, sample, in the
    schema and in the parameters alike. *)
Theorem sample_precedes_value (cache : Cache)
    (key sample value key_hint sample_hint value_hint binary : PyValue)
    (query_id : option Z) :
  let replace_request :=
    request_of (CacheReplaceIfEquals cache key sample value
                  key_hint sample_hint value_hint binary query_id) in
  let remove_request :=
    request_of (CacheRemoveIfEquals cache key sample
                  key_hint sample_hint binary query_id) in
  List.map fst (following (req_query replace_request)) =
    ["hash_code"; "flag"; "key"; "sample"; "value"] /\
  List.map fst (req_params replace_request) =
    ["hash_code"; "flag"; "key"; "sample"; "value"] /\
  List.map fst (following (req_query remove_request)) =
    ["hash_code"; "flag"; "key"; "sample"] /\
  List.map fst (req_params remove_request) =
    ["hash_code"; "flag"; "key"; "sample"].
Proof.
  repeat split.
Qed.

(** ** The properties at work on the sample data *)

(** C1 on the cache ["SQL_PUBLIC_MYCACHE"] and the cache id 42. *)
Lemma cache_id_deterministic_identity_witness :
  cache_id my_cache = cache_id my_cache /\
  int32 (cache_id my_cache) /\
  cache_id (CacheId 42) = 42.
Proof.
  destruct (cache_id_deterministic_identity
              (text "SQL_PUBLIC_MYCACHE") (text "SQL_PUBLIC_MYCACHE") 42)
    as [Hname Hid].
  destruct (Hname eq_refl) as [Hdet Hrange].
  refine (conj Hdet (conj Hrange (Hid _))).
  unfold int32. split; [intro H; discriminate H | reflexivity].
Defined.

(** C3: a [cache_get] answered with status 1 returns the answer as it is. *)
Lemma nonzero_status_passes_through_witness :
  exchange (recording (Ok failed)) tt get_call [] =
    (Ok failed, [request_of get_call]) /\
  Result.status failed <> 0 /\
  run (recording (Ok failed)) tt get_call [] =
    (Ok failed, [request_of get_call]).
Proof.
  assert (Hex : exchange (recording (Ok failed)) tt get_call [] =
                (Ok failed, [request_of get_call])) by reflexivity.
  assert (Hst : Result.status failed <> 0) by (intro H; discriminate H).
  exact (conj Hex (conj Hst
           (nonzero_status_passes_through _ _ _ _ _ _ Hex Hst))).
Defined.

(** C4: [cache_replace_if_equals] answered with the fields
    [{"success": True}] and status 0 returns [True] with status 0. *)
Lemma scalar_field_unwrapped_witness :
  req_config (request_of replace_call) = Some [("success", PyType Bool)] /\
  py_getitem (Result.value replaced) "success" = Ok (PyBool true) /\
  run (recording (Ok replaced)) tt replace_call [] =
    (Ok (set_value replaced (PyBool true)), [request_of replace_call]) /\
  Result.value (set_value replaced (PyBool true)) = PyBool true /\
  Result.status (set_value replaced (PyBool true)) = 0.
Proof.
  assert (Hcfg : req_config (request_of replace_call) =
                 Some [("success", PyType Bool)]) by reflexivity.
  assert (Hget : py_getitem (Result.value replaced) "success" =
                 Ok (PyBool true)) by reflexivity.
  refine (conj Hcfg (conj Hget (conj _ (conj eq_refl eq_refl)))).
  exact (scalar_field_unwrapped (recording (Ok replaced)) tt replace_call
           [] [request_of replace_call] replaced "success" (PyType Bool)
           (PyBool true) Hcfg (or_intror (or_introl eq_refl))
           eq_refl eq_refl Hget).
Defined.

(** C6: in the sample [cache_replace_if_equals] call the key has the hint
    [IntObject] and the sample has none. *)
Lemma hint_or_any_data_object_witness :
  In ("key", hint_arg (Some (DataClass "IntObject"))) (call_hints replace_call) /\
  In ("sample", hint_arg None) (call_hints replace_call) /\
  entry (following (req_query (request_of replace_call))) "key" =
    Some (PyType (DataClass "IntObject")) /\
  entry (following (req_query (request_of replace_call))) "sample" =
    Some (PyType AnyDataObject).
Proof.
  assert (Hkey : In ("key", hint_arg (Some (DataClass "IntObject")))
                    (call_hints replace_call))
    by (left; reflexivity).
  assert (Hsample : In ("sample", hint_arg None) (call_hints replace_call))
    by (right; left; reflexivity).
  exact (conj Hkey (conj Hsample
           (conj (hint_or_any_data_object replace_call "key" _ Hkey)
                 (hint_or_any_data_object replace_call "sample" _ Hsample)))).
Defined.

(** C7: [cache_get_all] answered with [{"data": {1: "a"}}] returns
    [{1: "a"}]. *)
Lemma get_all_value_is_data_mapping_witness :
  exchange (recording (Ok fetched)) tt get_all_call [] =
    (Ok fetched, [request_of get_all_call]) /\
  run (recording (Ok fetched)) tt get_all_call [] =
    (Ok (set_value fetched one_entry), [request_of get_all_call]).
Proof.
  split; [reflexivity|].
  exact (proj2 (get_all_value_is_data_mapping (recording (Ok fetched)) tt
                  my_cache (PyList [PyInt 1; PyInt 2]) (PyBool false) (Some 7)
                  [] [request_of get_all_call] fetched
                  [(PyStr (text "data"), one_entry)] one_entry
                  eq_refl eq_refl eq_refl eq_refl)).
Defined.

(** C8 on 0, on the mode 2 and on a list of modes. *)
Lemma peek_modes_normalized_witness :
  entry (req_params (request_of (CacheGetSize my_cache (PyInt 0) (PyBool false) None)))
        "peek_modes" = Some (PyList []) /\
  entry (req_params (request_of (CacheGetSize my_cache (PyInt 2) (PyBool false) None)))
        "peek_modes" = Some (PyList [PyInt 2]) /\
  entry (req_params (request_of
           (CacheGetSize my_cache (PyTuple [PyInt 1; PyInt 2]) (PyBool false) None)))
        "peek_modes" = Some (PyTuple [PyInt 1; PyInt 2]).
Proof.
  refine (conj _ (conj _ _)).
  - exact (proj1 (proj2 (peek_modes_normalized my_cache (PyInt 0) (PyBool false) None))
             eq_refl).
  - exact (proj2 (proj2 (proj2 (peek_modes_normalized my_cache (PyInt 2)
                                  (PyBool false) None)) eq_refl) eq_refl).
  - exact (proj1 (peek_modes_normalized my_cache (PyTuple [PyInt 1; PyInt 2])
                    (PyBool false) None) eq_refl).
Defined.

(** C9: the same [cache_get_all] with the same answer, once on a fresh
    recording connection and once, after another request, on a connection
    that forgets. *)
Lemma calls_deterministic_stateless_witness :
  fst (exchange (recording (Ok fetched)) tt get_all_call []) =
  fst (exchange (forgetful (Ok fetched)) tt get_all_call [request_of get_call]) /\
  fst (run (recording (Ok fetched)) tt get_all_call []) =
  fst (run (forgetful (Ok fetched)) tt get_all_call [request_of get_call]) /\
  snd (run (recording (Ok fetched)) tt get_all_call []) =
  [request_of get_all_call] /\
  snd (run (forgetful (Ok fetched)) tt get_all_call [request_of get_call]) = [].
Proof.
  assert (H : fst (exchange (recording (Ok fetched)) tt get_all_call []) =
              fst (exchange (forgetful (Ok fetched)) tt get_all_call
                     [request_of get_call])) by reflexivity.
  destruct (calls_deterministic_stateless (recording (Ok fetched))
              (forgetful (Ok fetched)) tt tt get_all_call []
              [request_of get_call] H) as [Hres [Hworld1 Hworld2]].
  refine (conj H (conj Hres (conj _ _))).
  - rewrite Hworld1. reflexivity.
  - rewrite Hworld2. reflexivity.
Defined.

(** * Further properties of the module *)

(** ** The projection of each kind of function *)

Ltac case_outcomes :=
  repeat match goal with
         | |- context [match ?o with Ok _ => _ | Raise _ => _ end] => destruct o
         end.


(** A function with a one-field response other than [data] projects as
    [unwrap] does. *)
Lemma project_scalar (call : Call) (name : string) (type : PyValue)
    (answer : outcome APIResult) :
  req_config (request_of call) = Some [(name, type)] ->
  name <> "data" ->
  project call answer = unwrap name answer.
Proof.
  destruct call; intros Hcfg Hname; try discriminate Hcfg;
    injection Hcfg as <- _; try (exfalso; apply Hname; reflexivity);
    destruct answer as [r|e]; try reflexivity;
    unfold project, unwrap; unfold_call;
    destruct (Result.status r =? 0); cbn [negb];
    case_outcomes; reflexivity.
Qed.

(** An exception of [perform] (a transport failure, a decode violation)
    leaves the call as it is, with the world as [perform] left it: no
    function catches it or tries again. *)
Theorem exchange_exception_propagates {World Connection : Type}
    (perform : Perform World Connection) (connection : Connection)
    (call : Call) (w w' : World) (e : PyExc) :
  exchange perform connection call w = (Raise e, w') ->
  run perform connection call w = (Raise e, w').
Proof.
  intros Hex. rewrite run_factor, Hex. cbn [fst snd]. f_equal.
  destruct call; reflexivity.
Qed.

(** A function with a one-field response raises when a status-0 result does
    not hold that field: [KeyError] when [value] is a dictionary without the
    key, [TypeError] when [value] is no dictionary (as [None], when [perform]
    decoded no field).  The status is 0, yet no result is returned. *)
Theorem missing_field_raises {World Connection : Type}
    (perform : Perform World Connection) (connection : Connection)
    (call : Call) (w w' : World) (result : APIResult)
    (name : string) (type : PyValue) :
  req_config (request_of call) = Some [(name, type)] ->
  name <> "data" ->
  exchange perform connection call w = (Ok result, w') ->
  Result.status result = 0 ->
  (forall d, Result.value result = PyDict d ->
             dict_getitem d (text name) = None ->
             run perform connection call w = (Raise KeyError, w')) /\
  ((forall d, Result.value result <> PyDict d) ->
   run perform connection call w = (Raise TypeError, w')).
Proof.
  intros Hcfg Hname Hex Hst.
  rewrite run_factor, Hex. cbn [fst snd].
  rewrite (project_scalar _ _ _ _ Hcfg Hname).
  apply Z.eqb_eq in Hst. unfold unwrap. rewrite Hst.
  split.
  - intros d Hd Hnone. rewrite Hd. cbn [py_getitem]. rewrite Hnone. reflexivity.
  - intros Hnd. destruct (Result.value result) as [| | | | | |d|]; try reflexivity.
    exfalso. exact (Hnd d eq_refl).
Qed.

(** A call returns a result only when [perform] returned one, and it is that
    result with at most [value] reassigned: status, message and query id are
    the ones [perform] gave, and the world is as [perform] left it. *)
Theorem result_comes_from_exchange {World Connection : Type}
    (perform : Perform World Connection) (connection : Connection)
    (call : Call) (w w' : World) (returned : APIResult) :
  run perform connection call w = (Ok returned, w') ->
  exists result : APIResult,
    exchange perform connection call w = (Ok result, w') /\
    returned = set_value result (Result.value returned).
Proof.
  rewrite run_factor.
  destruct (exchange perform connection call w) as [[r|e] w1]; cbn [fst snd];
    intros H; injection H as Hp <-.
  - exists r. split; [reflexivity|].
    revert Hp. destruct call; unfold project; unfold_call;
      try (intros H; injection H as <-; destruct r; reflexivity);
      destruct (Result.status r =? 0); cbn [negb]; case_outcomes;
      intros H; try discriminate H; injection H as <-;
      try reflexivity; destruct r; reflexivity.
  - exfalso. revert Hp. destruct call; unfold project; unfold_call; discriminate.
Qed.


(** The thirteen functions with a one-field response other than [data], in
    their two ways of writing the test on the status, all compute [unwrap]
    of the field name after their exchange. *)
Theorem scalar_functions_unwrap {World Connection : Type}
    (perform : Perform World Connection) (connection : Connection)
    (call : Call) (w : World) (name : string) (type : PyValue) :
  req_config (request_of call) = Some [(name, type)] ->
  name <> "data" ->
  run perform connection call w =
  (unwrap name (fst (exchange perform connection call w)),
   snd (exchange perform connection call w)).
Proof.
  intros Hcfg Hname. rewrite run_factor.
  rewrite (project_scalar _ _ _ _ Hcfg Hname). reflexivity.
Qed.

(** ** Hints, peek modes and op codes *)

(** A hint is taken by its truth value: any truthy object given as a hint
    becomes the descriptor, and a falsy one (0, an empty string, an empty
    list) is dropped for [AnyDataObject], as [None] is. *)
Theorem hint_taken_by_truth_value (call : Call) (field : string)
    (hint : PyValue) :
  In (field, hint) (call_hints call) ->
  entry (following (req_query (request_of call))) field =
    Some (if py_bool hint then hint else PyType AnyDataObject).
Proof.
  destruct call; cbn [call_hints In]; intros H;
    repeat (destruct H as [H|H]; [injection H as <- <-|]);
    try contradiction; reflexivity.
Qed.

(** What [cache_get_size] sends as [peek_modes] is always a list or a tuple,
    and the normalization is idempotent: a call with the value sent in place
    of the argument makes the same request. *)
Theorem peek_modes_sent_is_sequence (cache : Cache) (peek_modes binary : PyValue)
    (query_id : option Z) :
  exists sent : PyValue,
    entry (req_params (request_of (CacheGetSize cache peek_modes binary query_id)))
          "peek_modes" = Some sent /\
    is_list_or_tuple sent = true /\
    request_of (CacheGetSize cache sent binary query_id) =
    request_of (CacheGetSize cache peek_modes binary query_id).
Proof.
  unfold_call. cbn [entry String.eqb Ascii.eqb Bool.eqb].
  destruct (is_list_or_tuple peek_modes) eqn:Hseq; cbn [negb].
  - exists peek_modes. rewrite Hseq. auto.
  - destruct (py_eq_int peek_modes 0); eexists; repeat split; reflexivity.
Qed.

(** The op code tells the function: no two functions of the module send the
    same op code. *)
Theorem op_code_identifies_function (call1 call2 : Call) :
  op_code (req_query (request_of call1)) = op_code (req_query (request_of call2)) ->
  function_name call1 = function_name call2.
Proof.
  destruct call1, call2; intros H; try reflexivity; discriminate H.
Qed.


(** ** [cache_get_all] and [dict] *)

Lemma pystr_eqb_eq (a b : pystr) : pystr_eqb a b = true <-> a = b.
Proof.
  unfold pystr_eqb. destruct (list_eq_dec N.eq_dec a b); split; congruence.
Qed.

(** Lookup after assignment, for [str] keys. *)
Lemma dict_getitem_setitem (d : list (PyValue * PyValue)) (k k' : pystr)
    (v : PyValue) :
  dict_getitem (dict_setitem d (PyStr k) v) k' =
  if pystr_eqb k k' then Some v else dict_getitem d k'.
Proof.
  induction d as [|[k0 v0] d IH]; cbn [dict_setitem dict_getitem].
  - reflexivity.
  - destruct k0 as [| | |s| | | |]; cbn [py_key_eqb dict_getitem];
      try exact IH.
    destruct (pystr_eqb s k) eqn:Hsk; cbn [dict_getitem].
    + apply pystr_eqb_eq in Hsk. subst s.
      destruct (pystr_eqb k k'); reflexivity.
    + rewrite IH. destruct (pystr_eqb s k') eqn:Hsk'; [|reflexivity].
      destruct (pystr_eqb k k') eqn:Hkk'; [|reflexivity].
      apply pystr_eqb_eq in Hsk', Hkk'. subst.
      assert (Hrefl : pystr_eqb k' k' = true) by (apply pystr_eqb_eq; reflexivity).
      congruence.
Qed.

(** [dict] of a sequence of [(name, value)] tuples succeeds, and a name reads
    the last tuple that has it. *)
Lemma dict_update_pairs (fields : list (pystr * PyValue)) :
  forall d : list (PyValue * PyValue),
  exists d' : list (PyValue * PyValue),
    dict_update d (List.map pair_item fields) = Ok d' /\
    forall k, dict_getitem d' k = last_named fields k (dict_getitem d k).
Proof.
  induction fields as [|[n v] fields IH]; intros d; cbn [List.map dict_update].
  - exists d. split; reflexivity.
  - cbn [pair_item py_iter fst snd py_hashable].
    destruct (IH (dict_setitem d (PyStr n) v)) as [d' [Hup Hget]].
    exists d'. split; [exact Hup|].
    intros k. rewrite Hget, dict_getitem_setitem. reflexivity.
Qed.

(** [cache_get_all] raises on a status-0 result without a [data] field:
    [KeyError] when [value] is a dictionary without the key, and the
    [TypeError] of [dict] when [value] cannot be iterated (as [None]). *)
Theorem get_all_missing_data_raises {World Connection : Type}
    (perform : Perform World Connection) (connection : Connection)
    (cache : Cache) (keys binary : PyValue) (query_id : option Z)
    (w w' : World) (result : APIResult) :
  let call := CacheGetAll cache keys binary query_id in
  exchange perform connection call w = (Ok result, w') ->
  Result.status result = 0 ->
  (forall d, Result.value result = PyDict d ->
             dict_getitem d (text "data") = None ->
             run perform connection call w = (Raise KeyError, w')) /\
  (forall e, py_iter (Result.value result) = Raise e ->
             run perform connection call w = (Raise TypeError, w')).
Proof.
  intros call Hex Hst. rewrite run_factor, Hex. cbn [fst snd].
  apply Z.eqb_eq in Hst. unfold project, call; unfold_call. rewrite Hst.
  split.
  - intros d -> Hnone. cbn [py_dict py_getitem]. rewrite Hnone. reflexivity.
  - intros e He.
    destruct (Result.value result); try discriminate He; reflexivity.
Qed.

(** [cache_get_all] passes the fields through [dict]: a status-0 result whose
    [value] is a list of [(name, value)] tuples is read as well as a
    dictionary, and gives the value of the last tuple named [data]. *)
Theorem get_all_reads_last_data_pair {World Connection : Type}
    (perform : Perform World Connection) (connection : Connection)
    (cache : Cache) (keys binary : PyValue) (query_id : option Z)
    (w w' : World) (result : APIResult) (fields : list (pystr * PyValue)) :
  let call := CacheGetAll cache keys binary query_id in
  exchange perform connection call w = (Ok result, w') ->
  Result.status result = 0 ->
  Result.value result = PyList (List.map pair_item fields) ->
  run perform connection call w =
  (match last_named fields (text "data") None with
   | Some mapping => Ok (set_value result mapping)
   | None => Raise KeyError
   end, w').
Proof.
  intros call Hex Hst Hval. rewrite run_factor, Hex. cbn [fst snd]. f_equal.
  apply Z.eqb_eq in Hst. unfold project, call; unfold_call. rewrite Hst, Hval.
  cbn [py_dict py_iter].
  destruct (dict_update_pairs fields []) as [d' [Hup Hget]].
  rewrite Hup. cbn [py_getitem]. rewrite Hget. cbn [dict_getitem].
  destruct (last_named fields (text "data") None); reflexivity.
Qed.

(** ** The further properties on the sample data *)

(** A [cache_get] whose exchange fails in transport raises that failure. *)
Lemma exchange_exception_propagates_witness :
  exchange (recording (Raise TransportError)) tt get_call [] =
    (Raise TransportError, [request_of get_call]) /\
  run (recording (Raise TransportError)) tt get_call [] =
    (Raise TransportError, [request_of get_call]).
Proof.
  assert (Hex : exchange (recording (Raise TransportError)) tt get_call [] =
                (Raise TransportError, [request_of get_call])) by reflexivity.
  exact (conj Hex (exchange_exception_propagates _ _ _ _ _ _ Hex)).
Defined.

(** A [cache_get] answered with status 0 and only a [count] field raises
    [KeyError]; answered with status 0 and no fields, [TypeError]. *)
Lemma missing_field_raises_witness :
  req_config (request_of get_call) = Some [("value", PyType AnyDataObject)] /\
  Result.status other_fields = 0 /\
  run (recording (Ok other_fields)) tt get_call [] =
    (Raise KeyError, [request_of get_call]) /\
  run (recording (Ok no_fields)) tt get_call [] =
    (Raise TypeError, [request_of get_call]).
Proof.
  assert (Hcfg : req_config (request_of get_call) =
                 Some [("value", PyType AnyDataObject)]) by reflexivity.
  assert (Hname : "value" <> "data") by (intro H; discriminate H).
  refine (conj Hcfg (conj eq_refl (conj _ _))).
  - exact (proj1 (missing_field_raises (recording (Ok other_fields)) tt get_call
                    [] [request_of get_call] other_fields "value" _
                    Hcfg Hname eq_refl eq_refl)
             [(PyStr (text "count"), PyInt 3)] eq_refl eq_refl).
  - refine (proj2 (missing_field_raises (recording (Ok no_fields)) tt get_call
                     [] [request_of get_call] no_fields "value" _
                     Hcfg Hname eq_refl eq_refl) _).
    intros d H. discriminate H.
Defined.

(** The result of the sample [cache_replace_if_equals] is the one of its
    exchange with [value] reassigned. *)
Lemma result_comes_from_exchange_witness :
  run (recording (Ok replaced)) tt replace_call [] =
    (Ok (set_value replaced (PyBool true)), [request_of replace_call]) /\
  exists result : APIResult,
    exchange (recording (Ok replaced)) tt replace_call [] =
      (Ok result, [request_of replace_call]) /\
    set_value replaced (PyBool true) =
      set_value result (Result.value (set_value replaced (PyBool true))).
Proof.
  assert (Hrun : run (recording (Ok replaced)) tt replace_call [] =
                 (Ok (set_value replaced (PyBool true)),
                  [request_of replace_call])) by reflexivity.
  exact (conj Hrun (result_comes_from_exchange _ _ _ _ _ _ Hrun)).
Defined.


(** The sample [cache_replace_if_equals] is [unwrap "success"] after its
    exchange. *)
Lemma scalar_functions_unwrap_witness :
  req_config (request_of replace_call) = Some [("success", PyType Bool)] /\
  run (forgetful (Ok replaced)) tt replace_call [request_of get_call] =
    (unwrap "success" (Ok replaced), []).
Proof.
  assert (Hcfg : req_config (request_of replace_call) =
                 Some [("success", PyType Bool)]) by reflexivity.
  assert (Hname : "success" <> "data") by (intro H; discriminate H).
  refine (conj Hcfg _).
  rewrite (scalar_functions_unwrap (forgetful (Ok replaced)) tt replace_call
             [request_of get_call] "success" _ Hcfg Hname).
  reflexivity.
Defined.

(** A [cache_put] with the hint 0 for the key and the hint [String] for the
    value. *)
Lemma hint_taken_by_truth_value_witness :
  let call := CachePut my_cache (PyInt 1) (PyStr (text "a"))
                (PyInt 0) (PyType (DataClass "String")) (PyBool false) None in
  In ("key", PyInt 0) (call_hints call) /\
  entry (following (req_query (request_of call))) "key" =
    Some (PyType AnyDataObject) /\
  entry (following (req_query (request_of call))) "value" =
    Some (PyType (DataClass "String")).
Proof.
  intros call.
  assert (Hkey : In ("key", PyInt 0) (call_hints call)) by (left; reflexivity).
  assert (Hvalue : In ("value", PyType (DataClass "String")) (call_hints call))
    by (right; left; reflexivity).
  exact (conj Hkey (conj (hint_taken_by_truth_value call "key" _ Hkey)
                         (hint_taken_by_truth_value call "value" _ Hvalue))).
Defined.

(** Two calls with the op code of [cache_get] are calls of [cache_get]. *)
Lemma op_code_identifies_function_witness :
  op_code (req_query (request_of get_call)) =
  op_code (req_query (request_of
             (CacheGet my_cache PyNone (PyType Int) (PyBool false) (Some 1)))) /\
  function_name get_call = "cache_get".
Proof.
  split; [reflexivity|].
  exact (op_code_identifies_function get_call
           (CacheGet my_cache PyNone (PyType Int) (PyBool false) (Some 1))
           eq_refl).
Defined.

(** [cache_get_all] answered with status 0 and only a [count] field, and
    with no fields. *)
Lemma get_all_missing_data_raises_witness :
  run (recording (Ok other_fields)) tt get_all_call [] =
    (Raise KeyError, [request_of get_all_call]) /\
  run (recording (Ok no_fields)) tt get_all_call [] =
    (Raise TypeError, [request_of get_all_call]).
Proof.
  split.
  - exact (proj1 (get_all_missing_data_raises (recording (Ok other_fields)) tt
                    my_cache (PyList [PyInt 1; PyInt 2]) (PyBool false) (Some 7)
                    [] [request_of get_all_call] other_fields eq_refl eq_refl)
             [(PyStr (text "count"), PyInt 3)] eq_refl eq_refl).
  - exact (proj2 (get_all_missing_data_raises (recording (Ok no_fields)) tt
                    my_cache (PyList [PyInt 1; PyInt 2]) (PyBool false) (Some 7)
                    [] [request_of get_all_call] no_fields eq_refl eq_refl)
             TypeError eq_refl).
Defined.

(** [cache_get_all] answered with the pairs [("data", None)],
    [("data", {1: "a"})] returns [{1: "a"}]. *)
Lemma get_all_reads_last_data_pair_witness :
  Result.value fetched_pairs =
    PyList (List.map pair_item [(text "data", PyNone); (text "data", one_entry)]) /\
  run (recording (Ok fetched_pairs)) tt get_all_call [] =
    (Ok (set_value fetched_pairs one_entry), [request_of get_all_call]).
Proof.
  split; [reflexivity|].
  exact (get_all_reads_last_data_pair (recording (Ok fetched_pairs)) tt
           my_cache (PyList [PyInt 1; PyInt 2]) (PyBool false) (Some 7)
           [] [request_of get_all_call] fetched_pairs
           [(text "data", PyNone); (text "data", one_entry)]
           eq_refl eq_refl eq_refl).
Defined.
